(** * cScanner, test_c/false_positive_safe.c

    A shallow embedding of the fixture [safe_examples] and of the three
    C library calls it makes, over a block memory with an output stream.

    - Memory is a finite map from block identifiers to arrays of cells; a
      cell is [None] while its value is indeterminate (an automatic array
      without initialiser) and [Some c] once a character was stored.
    - A pointer is a block and an offset. A store outside the block, or
      through a pointer to no block, is an error, never silent.
    - A string literal is its array of characters with the terminating
      null; it is immutable, so a [const char *] to a literal is passed as
      that array.
    - The library calls follow ISO C (7.21.6 for the formatted output
      functions, 7.24.2.1 for memcpy), restricted to the conversions
      [%d], [%s] and [%%]; every other conversion is an error of the
      model.
    - The stream [stdout] is unbuffered and writes to a device that may
      have room for a bounded number of characters only (a full disk).
      A write the device refuses is an output error of [printf]
      (7.21.6.3p3): the call returns a negative value and the error
      indicator of the stream is set. It is no error of the machine: the
      program goes on. *)

From Stdlib Require Import ZArith List String DecimalString Strings.Byte.
From stdpp Require Import base option list gmap.

Local Open Scope Z_scope.
Local Open Scope nat_scope.

(** ** Machine state *)

Abbreviation block := positive.

(** One [char] object: indeterminate, or a character. *)
Abbreviation cell := (option byte).

Record ptr := Ptr { pblock : block; poff : nat }.

(** Values passed to the library: an [int], a [size_t], a pointer into
    memory, or a pointer to an immutable character array. *)
Inductive val :=
| Vint (z : Z)
| Vsize (n : nat)
| Vptr (p : ptr)
| Vstr (a : list byte).

Inductive ctype := Tint | Tsize | Tcharp.

Definition type_of (v : val) : ctype :=
  match v with
  | Vint _ => Tint
  | Vsize _ => Tsize
  | Vptr _ => Tcharp
  | Vstr _ => Tcharp
  end.

Inductive libfn := Fsnprintf | Fprintf | Fmemcpy.

(** What an execution leaves in its log: the library calls with their
    evaluated arguments, and the stores into memory with the capacity of
    the block stored into. *)
Inductive event :=
| Call (f : libfn) (args : list val)
| Store (b : block) (off len cap : nat).

(** The memory, the characters written to [stdout] so far, the number
    of characters its device still takes ([None]: no limit), the error
    indicator of the stream, [errno], and the log. *)
Record state := State {
  mem : gmap block (list cell);
  stdout : list byte;
  room : option nat;
  stdout_error : bool;
  errno : Z;
  trace : list event
}.

Inductive error :=
| InvalidPointer
| OutOfBoundsWrite
| OutOfBoundsRead
| BadFormat.

Inductive result (A : Type) :=
| Ok (a : A)
| Err (e : error).
Arguments Ok {A} a.
Arguments Err {A} e.

(** ** The monad of C computations: state passing with errors *)

Definition M (A : Type) : Type := state → result (A * state).

Definition ret {A} (a : A) : M A := λ s, Ok (a, s).

Definition bind {A B} (m : M A) (f : A → M B) : M B :=
  λ s, match m s with
       | Ok (a, s') => f a s'
       | Err e => Err e
       end.

Definition fail {A} (e : error) : M A := λ _, Err e.

#[global] Instance M_ret : MRet M := @ret.
#[global] Instance M_bind : MBind M := λ A B f m, bind m f.

Definition lift {A} (e : error) (o : option A) : M A :=
  match o with
  | Some a => ret a
  | None => fail e
  end.

Definition log (ev : event) : M unit :=
  λ s, Ok (tt, State (mem s) (stdout s) (room s) (stdout_error s) (errno s)
                     (trace s ++ [ev])).

(** ** Memory operations *)

(** Storage for an automatic array of [n] chars: a block that is not in
    use, every cell indeterminate. *)
Definition alloca (n : nat) : M ptr :=
  λ s, let b := fresh (dom (mem s)) in
       Ok (Ptr b 0, State (<[b := replicate n None]> (mem s))
                          (stdout s) (room s) (stdout_error s) (errno s) (trace s)).

(** End of the lifetime of an automatic array. *)
Definition leave (p : ptr) : M unit :=
  λ s, match mem s !! pblock p with
       | Some _ => Ok (tt, State (delete (pblock p) (mem s))
                                 (stdout s) (room s) (stdout_error s) (errno s) (trace s))
       | None => Err InvalidPointer
       end.

Definition store_bytes (p : ptr) (bs : list byte) : M unit :=
  λ s, match mem s !! pblock p with
       | None => Err InvalidPointer
       | Some cells =>
           if poff p + length bs <=? length cells then
             Ok (tt, State (<[pblock p := list_inserts (poff p) (Some <$> bs) cells]> (mem s))
                           (stdout s) (room s) (stdout_error s) (errno s)
                           (trace s ++ [Store (pblock p) (poff p) (length bs) (length cells)]))
           else Err OutOfBoundsWrite
       end.

(** ** The stream [stdout] *)

(** The value of [errno] for a device without room. *)
Definition ENOSPC : Z := 28.

(** How many of [n] characters a device with room [r] takes. *)
Definition accepted (r : option nat) (n : nat) : nat :=
  match r with
  | None => n
  | Some k => k `min` n
  end.

(** The device of [stdout] takes [n] more characters. *)
Definition has_room (n : nat) (s : state) : bool :=
  match room s with
  | None => true
  | Some k => n <=? k
  end.

(** The state after a write of [bs] to [stdout]: the characters the
    device has room for are written. If that is not all of them, the
    error indicator of the stream is set, and [errno]. (ISO C 7.5p3 lets
    a call that succeeds change [errno] as well; no theorem of this file
    relies on its value after a write that succeeded.) *)
Definition transmit (bs : list byte) (s : state) : state :=
  let k := accepted (room s) (length bs) in
  State (mem s)
        (stdout s ++ take k bs)
        ((λ r, r - k) <$> room s)
        (stdout_error s || negb (has_room (length bs) s))
        (if has_room (length bs) s then errno s else ENOSPC)
        (trace s).

(** Writes [bs] to [stdout]; tells whether all of it was written. *)
Definition write_stdout (bs : list byte) : M bool :=
  λ s, Ok (has_room (length bs) s, transmit bs s).

(** ** Strings *)

(** The escape sequence [\n]. *)
Definition newline : string := String (Ascii.ascii_of_nat 10) EmptyString.

(** The array of a string literal. *)
Definition string_literal (s : string) : list byte :=
  list_byte_of_string s ++ [x00].

(** The string an array of characters starts with: the characters before
    the first null. There is none when the array has no null. *)
Fixpoint cstring (a : list byte) : option (list byte) :=
  match a with
  | [] => None
  | c :: a' => if Byte.eqb c x00 then Some [] else (c ::.) <$> cstring a'
  end.

(** The same for an array in memory, where reading an indeterminate cell
    gives no string either. *)
Fixpoint load_cstring (cells : list cell) : option (list byte) :=
  match cells with
  | Some c :: cells' =>
      if Byte.eqb c x00 then Some [] else (c ::.) <$> load_cstring cells'
  | _ => None
  end.


(** ** Formatted output *)

Definition INT_MIN : Z := - 2 ^ 31.
Definition INT_MAX : Z := 2 ^ 31 - 1.

Definition is_int (z : Z) : bool := ((INT_MIN <=? z) && (z <=? INT_MAX))%Z.

(** [%d]: the decimal digits of an [int], with a minus sign when negative. *)
Definition decimal (z : Z) : list byte :=
  list_byte_of_string (NilZero.string_of_int (Z.to_int z)).

Definition percent : byte := "%"%byte.

(** The output of a format string (without its null) for a list of
    arguments: ordinary characters are copied, [%d] takes an [int], [%s]
    a pointer to a string, [%%] gives a percent sign. A missing argument
    or one of the wrong type is undefined behaviour: no output. Arguments
    left over are ignored. *)
Fixpoint format (fmt : list byte) (args : list val) : option (list byte) :=
  match fmt with
  | [] => Some []
  | c :: fmt' =>
      if Byte.eqb c percent then
        match fmt' with
        | [] => None
        | d :: fmt'' =>
            if Byte.eqb d "d"%byte then
              match args with
              | Vint z :: args' =>
                  if is_int z then (decimal z ++.) <$> format fmt'' args' else None
              | _ => None
              end
            else if Byte.eqb d "s"%byte then
              match args with
              | Vstr a :: args' =>
                  str ← cstring a; (str ++.) <$> format fmt'' args'
              | _ => None
              end
            else if Byte.eqb d percent then (percent ::.) <$> format fmt'' args
            else None
        end
      else (c ::.) <$> format fmt' args
  end.

(** The argument types the conversions of a format string ask for, in
    order. *)
Fixpoint conversions (fmt : list byte) : option (list ctype) :=
  match fmt with
  | [] => Some []
  | c :: fmt' =>
      if Byte.eqb c percent then
        match fmt' with
        | [] => None
        | d :: fmt'' =>
            if Byte.eqb d "d"%byte then (Tint ::.) <$> conversions fmt''
            else if Byte.eqb d "s"%byte then (Tcharp ::.) <$> conversions fmt''
            else if Byte.eqb d percent then conversions fmt''
            else None
        end
      else conversions fmt'
  end.

(** ** The library calls *)

(** [int snprintf(char *s, size_t n, const char *format, ...)]: with [n]
    zero nothing is stored; otherwise the first [n - 1] characters of the
    output and a null. Returns the length of the whole output. *)
Definition snprintf (s : ptr) (n : nat) (fmt : list byte) (args : list val) : M Z :=
  log (Call Fsnprintf (Vptr s :: Vsize n :: Vstr fmt :: args));;
  f ← lift BadFormat (cstring fmt);
  out ← lift BadFormat (format f args);
  match n with
  | 0 => mret tt
  | S m => store_bytes s (take m out ++ [x00])
  end;;
  mret (Z.of_nat (length out)).

(** [int printf(const char *format, ...)]: the output goes to [stdout].
    Returns the number of characters written, or a negative value when
    an output error occurred. *)
Definition printf (fmt : list byte) (args : list val) : M Z :=
  log (Call Fprintf (Vstr fmt :: args));;
  f ← lift BadFormat (cstring fmt);
  out ← lift BadFormat (format f args);
  ok ← write_stdout out;
  mret (if ok : bool then Z.of_nat (length out) else (-1)%Z).

(** [void *memcpy(void *s1, const void *s2, size_t n)], the source being
    an immutable array: copies its first [n] characters. Returns [s1]. *)
Definition memcpy (s1 : ptr) (s2 : list byte) (n : nat) : M ptr :=
  log (Call Fmemcpy [Vptr s1; Vstr s2; Vsize n]);;
  if n <=? length s2 then store_bytes s1 (take n s2);; mret s1
  else fail OutOfBoundsRead.

(** ** Statements *)

Definition stmt := M unit.

(** An expression statement evaluates the expression and drops its value. *)
Definition expr_stmt {A} (e : M A) : stmt := e;; mret tt.

(** A compound statement runs its statements in order. *)
Fixpoint compound (ss : list stmt) : M unit :=
  match ss with
  | [] => mret tt
  | st :: ss' => st;; compound ss'
  end.

(** ** false_positive_safe.c *)

(** [char buf[32]], and [sizeof(buf)]. *)
Definition BUF_LEN : nat := 32.
Definition sizeof_buf : nat := BUF_LEN * 1.

(** The three statements of [safe_examples], [buf] being the address of
    the first element of the array. *)
Definition safe_examples_body (buf : ptr) : list stmt :=
  [ expr_stmt (snprintf buf sizeof_buf (string_literal "Hello %s")
                 [Vstr (string_literal "World")]);
    expr_stmt (printf (string_literal (String.append "Value: %d" newline)) [Vint 42]);
    expr_stmt (memcpy buf (string_literal "abcd") 4) ].

Definition safe_examples : M unit :=
  buf ← alloca BUF_LEN;
  compound (safe_examples_body buf);;
  leave buf.

(** The external definitions of the translation unit. *)
Definition translation_unit : list (string * M unit) :=
  [ ("safe_examples"%string, safe_examples) ].

(** The function stopped after its first [k] statements, before [buf]
    goes out of scope; returns the address of [buf]. *)
Definition safe_examples_upto (k : nat) : M ptr :=
  buf ← alloca BUF_LEN;
  compound (take k (safe_examples_body buf));;
  mret buf.

(** ** Observations on logs *)

Definition calls (evs : list event) : list (libfn * list val) :=
  omap (λ ev, match ev with Call f args => Some (f, args) | _ => None end) evs.

Definition stores (evs : list event) : list (block * nat * nat * nat) :=
  omap (λ ev, match ev with Store b off len cap => Some (b, off, len, cap) | _ => None end) evs.

(** A store that ends strictly before the end of its block. *)
Definition strictly_bounded (ev : event) : bool :=
  match ev with
  | Store _ off len cap => off + len <? cap
  | Call _ _ => true
  end.

(** ** The course of [safe_examples] from a state [s]

    The states the proofs below show the function to pass through, named
    after the source line that was executed last. *)

Section Course.
Context (s : state).

(** The block [buf] gets, and the address of [buf]. *)
Definition buf_block : block := fresh (dom (mem s)).
Definition buf_addr : ptr := Ptr buf_block 0.

Definition ev_snprintf : event :=
  Call Fsnprintf [Vptr buf_addr; Vsize 32; Vstr (string_literal "Hello %s");
                  Vstr (string_literal "World")].
Definition ev_printf : event :=
  Call Fprintf [Vstr (string_literal (String.append "Value: %d" newline)); Vint 42].
Definition ev_memcpy : event :=
  Call Fmemcpy [Vptr buf_addr; Vstr (string_literal "abcd"); Vsize 4].

Definition cells_line6 : list cell := replicate 32 None.
Definition cells_line8 : list cell :=
  (Some <$> string_literal "Hello World") ++ replicate 20 None.
Definition cells_line10 : list cell :=
  (Some <$> string_literal "abcdo World") ++ replicate 20 None.

Definition text_line9 : list byte :=
  list_byte_of_string (String.append "Value: 42" newline).

(** The stream after the [printf] of line 9. *)
Definition stream_line9 : state := transmit text_line9 s.

Definition state_line6 : state :=
  State (<[buf_block := cells_line6]> (mem s))
        (stdout s) (room s) (stdout_error s) (errno s) (trace s).
Definition state_line8 : state :=
  State (<[buf_block := cells_line8]> (mem s))
        (stdout s) (room s) (stdout_error s) (errno s)
        (trace s ++ [ev_snprintf; Store buf_block 0 12 32]).
Definition state_line9 : state :=
  State (<[buf_block := cells_line8]> (mem s))
        (stdout stream_line9) (room stream_line9)
        (stdout_error stream_line9) (errno stream_line9)
        (trace s ++ [ev_snprintf; Store buf_block 0 12 32; ev_printf]).
Definition state_line10 : state :=
  State (<[buf_block := cells_line10]> (mem s))
        (stdout stream_line9) (room stream_line9)
        (stdout_error stream_line9) (errno stream_line9)
        (trace s ++ [ev_snprintf; Store buf_block 0 12 32; ev_printf;
                     ev_memcpy; Store buf_block 0 4 32]).
Definition state_line11 : state :=
  State (mem s)
        (stdout stream_line9) (room stream_line9)
        (stdout_error stream_line9) (errno stream_line9)
        (trace s ++ [ev_snprintf; Store buf_block 0 12 32; ev_printf;
                     ev_memcpy; Store buf_block 0 4 32]).
End Course.

(** ** Runs on a concrete machine *)

(** A machine with no memory in use and no limit on [stdout]. *)
Definition empty_state : state := State ∅ [] None false 0 [].

(** A machine with one block of eight indeterminate cells. *)
Definition small_state : state :=
  State {[ 1%positive := replicate 8 None ]} [] None false 0 [].

(** A machine whose [stdout] is a full device: it takes no character. *)
Definition full_state : state := State ∅ [] (Some 0) false 0 [].

(** A machine whose [stdout] takes [r] more characters. *)
Definition room_state (r : nat) : state := State ∅ [] (Some r) false 0 [].

Example safe_examples_runs :
  safe_examples empty_state =
  Ok (tt, State ∅ (list_byte_of_string (String.append "Value: 42" newline))
        None false 0
        [ Call Fsnprintf [Vptr (Ptr 1%positive 0); Vsize 32;
                          Vstr (string_literal "Hello %s");
                          Vstr (string_literal "World")];
          Store 1%positive 0 12 32;
          Call Fprintf [Vstr (string_literal (String.append "Value: %d" newline)); Vint 42];
          Call Fmemcpy [Vptr (Ptr 1%positive 0); Vstr (string_literal "abcd"); Vsize 4];
          Store 1%positive 0 4 32 ]).
Proof. vm_compute. reflexivity. Qed.

(** With a size smaller than the output, [snprintf] cuts the output and
    still returns its whole length. *)
Example snprintf_truncates :
  snprintf (Ptr 1 0) 6 (string_literal "Hello %s") [Vstr (string_literal "World")]
    small_state
  = Ok (11%Z,
        State {[ 1%positive := (Some <$> string_literal "Hello") ++ [None; None] ]} []
          None false 0
          [ Call Fsnprintf [Vptr (Ptr 1 0); Vsize 6; Vstr (string_literal "Hello %s");
                            Vstr (string_literal "World")];
            Store 1 0 6 8 ]).
Proof. vm_compute. reflexivity. Qed.

(** With a size larger than the block and an output that does not fit,
    the store is refused. *)
Example snprintf_overflows :
  snprintf (Ptr 1 0) 32 (string_literal "Hello %s") [Vstr (string_literal "World")]
    small_state
  = Err OutOfBoundsWrite.
Proof. vm_compute. reflexivity. Qed.

Example memcpy_overflows :
  memcpy (Ptr 1 6) (string_literal "abcd") 4 small_state = Err OutOfBoundsWrite.
Proof. vm_compute. reflexivity. Qed.

Example memcpy_reads_past_source :
  memcpy (Ptr 1 0) (string_literal "abcd") 6 small_state = Err OutOfBoundsRead.
Proof. vm_compute. reflexivity. Qed.

Example printf_missing_argument :
  printf (string_literal "Value: %d") [] small_state = Err BadFormat.
Proof. vm_compute. reflexivity. Qed.

Example printf_negative :
  printf (string_literal "%d%%") [Vint (-7)] small_state
  = Ok (3%Z,
        State {[ 1%positive := replicate 8 None ]} (list_byte_of_string "-7%")
          None false 0
          [ Call Fprintf [Vstr (string_literal "%d%%"); Vint (-7)] ]).
Proof. vm_compute. reflexivity. Qed.

(** On a full device [printf] writes nothing and returns a negative
    value; the machine goes on. *)
Example printf_full_device :
  printf (string_literal (String.append "Value: %d" newline)) [Vint 42] full_state
  = Ok ((-1)%Z,
        State ∅ [] (Some 0) true ENOSPC
          [ Call Fprintf [Vstr (string_literal (String.append "Value: %d" newline));
                          Vint 42] ]).
Proof. vm_compute. reflexivity. Qed.

(** With room for four characters, four are written. *)
Example printf_short_device :
  printf (string_literal (String.append "Value: %d" newline)) [Vint 42] (room_state 4)
  = Ok ((-1)%Z,
        State ∅ (list_byte_of_string "Valu") (Some 0) true ENOSPC
          [ Call Fprintf [Vstr (string_literal (String.append "Value: %d" newline));
                          Vint 42] ]).
Proof. vm_compute. reflexivity. Qed.

(** ** Contracts of the memory operations and the library calls *)

Section Contracts.
Implicit Types (s : state) (p : ptr) (cells : list cell).

Lemma bind_ok {A B} (m : M A) (k : A → M B) s a s1 :
  m s = Ok (a, s1) → (m ≫= k) s = k a s1.
Proof. intros H. unfold mbind, M_bind, bind. by rewrite H. Qed.

Lemma store_bytes_ok s p bs cells :
  mem s !! pblock p = Some cells →
  poff p + length bs ≤ length cells →
  store_bytes p bs s =
  Ok (tt, State (<[pblock p := list_inserts (poff p) (Some <$> bs) cells]> (mem s))
                (stdout s) (room s) (stdout_error s) (errno s)
                (trace s ++ [Store (pblock p) (poff p) (length bs) (length cells)])).
Proof.
  intros Hb Hle. unfold store_bytes. rewrite Hb.
  by rewrite (proj2 (Nat.leb_le _ _) Hle).
Qed.

Lemma store_bytes_overflow s p bs cells :
  mem s !! pblock p = Some cells →
  length cells < poff p + length bs →
  store_bytes p bs s = Err OutOfBoundsWrite.
Proof.
  intros Hb Hlt. unfold store_bytes. rewrite Hb.
  by rewrite (proj2 (Nat.leb_gt _ _) Hlt).
Qed.

Lemma snprintf_ok s p m fmt args f out cells :
  cstring fmt = Some f →
  format f args = Some out →
  mem s !! pblock p = Some cells →
  poff p + S (length (take m out)) ≤ length cells →
  snprintf p (S m) fmt args s =
  Ok (Z.of_nat (length out),
      State (<[pblock p := list_inserts (poff p) (Some <$> take m out ++ [x00]) cells]> (mem s))
            (stdout s) (room s) (stdout_error s) (errno s)
            (trace s ++ [Call Fsnprintf (Vptr p :: Vsize (S m) :: Vstr fmt :: args);
                         Store (pblock p) (poff p) (S (length (take m out))) (length cells)])).
Proof.
  intros Hf Hout Hb Hle.
  unfold snprintf, mbind, M_bind, bind, log. rewrite Hf. cbn [lift ret].
  rewrite Hout. cbn [lift ret].
  rewrite store_bytes_ok with (cells := cells); cbn [mem stdout room stdout_error errno trace]; try done.
  - rewrite length_app, Nat.add_1_r, <- app_assoc. reflexivity.
  - rewrite length_app, Nat.add_1_r. lia.
Qed.

Lemma printf_ok s fmt args f out :
  cstring fmt = Some f →
  format f args = Some out →
  printf fmt args s =
  Ok (if has_room (length out) s then Z.of_nat (length out) else (-1)%Z,
      State (mem s)
            (stdout (transmit out s)) (room (transmit out s))
            (stdout_error (transmit out s)) (errno (transmit out s))
            (trace s ++ [Call Fprintf (Vstr fmt :: args)])).
Proof.
  intros Hf Hout. unfold printf.
  unfold mbind, M_bind, bind, log. rewrite Hf. cbn [lift ret].
  rewrite Hout. reflexivity.
Qed.

Lemma memcpy_ok s p src n cells :
  n ≤ length src →
  mem s !! pblock p = Some cells →
  poff p + n ≤ length cells →
  memcpy p src n s =
  Ok (p, State (<[pblock p := list_inserts (poff p) (Some <$> take n src) cells]> (mem s))
               (stdout s) (room s) (stdout_error s) (errno s)
               (trace s ++ [Call Fmemcpy [Vptr p; Vstr src; Vsize n];
                            Store (pblock p) (poff p) n (length cells)])).
Proof.
  intros Hn Hb Hle. unfold memcpy.
  unfold mbind, M_bind, bind, log. rewrite (proj2 (Nat.leb_le _ _) Hn).
  rewrite store_bytes_ok with (cells := cells); cbn [mem stdout room stdout_error errno trace]; try done.
  - rewrite length_take, Nat.min_l, <- app_assoc by lia. reflexivity.
  - rewrite length_take. lia.
Qed.

Lemma alloca_fresh s : mem s !! fresh (dom (mem s)) = None.
Proof. apply not_elem_of_dom, is_fresh. Qed.

End Contracts.

(** ** The course of [safe_examples] *)

Lemma buf_block_fresh s : mem s !! buf_block s = None.
Proof. apply alloca_fresh. Qed.

Lemma alloca_line6 s : alloca BUF_LEN s = Ok (buf_addr s, state_line6 s).
Proof. reflexivity. Qed.

Lemma snprintf_line8 s :
  snprintf (buf_addr s) sizeof_buf (string_literal "Hello %s")
    [Vstr (string_literal "World")] (state_line6 s)
  = Ok (11%Z, state_line8 s).
Proof.
  change sizeof_buf with (S 31).
  erewrite snprintf_ok with (cells := cells_line6)
    (f := list_byte_of_string "Hello %s") (out := list_byte_of_string "Hello World");
    [ | reflexivity | reflexivity | apply lookup_insert_eq | vm_compute; lia ].
  unfold state_line8, state_line6. cbn [mem stdout room stdout_error errno trace buf_addr pblock poff].
  rewrite insert_insert_eq. reflexivity.
Qed.

Lemma printf_line9 s :
  printf (string_literal (String.append "Value: %d" newline)) [Vint 42] (state_line8 s)
  = Ok (if has_room 10 s then 10%Z else (-1)%Z, state_line9 s).
Proof.
  erewrite printf_ok with
    (f := list_byte_of_string (String.append "Value: %d" newline)) (out := text_line9);
    [ | reflexivity | reflexivity ].
  unfold state_line9, state_line8. cbn [mem stdout room stdout_error errno trace].
  rewrite <- app_assoc. reflexivity.
Qed.

(** A write the device has room for: all of it is written, and the
    error indicator of the stream is as it was. *)
Lemma transmit_fits bs s :
  has_room (length bs) s = true →
  stdout (transmit bs s) = stdout s ++ bs ∧
  stdout_error (transmit bs s) = stdout_error s.
Proof.
  unfold transmit, has_room, accepted. cbn [stdout stdout_error].
  destruct (room s) as [k|]; intros H.
  - apply Nat.leb_le in H. rewrite Nat.min_r, firstn_all by lia.
    split; [reflexivity|]. cbn [room]. rewrite (proj2 (Nat.leb_le _ _) H).
    apply orb_false_r.
  - rewrite firstn_all. split; [reflexivity|apply orb_false_r].
Qed.

(** Whatever the device takes, what was written stays written. *)
Lemma transmit_prefix bs s : stdout s `prefix_of` stdout (transmit bs s).
Proof. unfold transmit. cbn [stdout]. by eexists. Qed.

Lemma stdout_line9_fits s :
  has_room 10 s = true →
  stdout (state_line9 s) = stdout s ++ text_line9 ∧
  stdout_error (state_line9 s) = stdout_error s.
Proof. intros H. exact (transmit_fits text_line9 s H). Qed.

Lemma memcpy_line10 s :
  memcpy (buf_addr s) (string_literal "abcd") 4 (state_line9 s)
  = Ok (buf_addr s, state_line10 s).
Proof.
  erewrite memcpy_ok with (cells := cells_line8);
    [ | vm_compute; lia | apply lookup_insert_eq | vm_compute; lia ].
  unfold state_line10, state_line9. cbn [mem stdout room stdout_error errno trace buf_addr pblock poff].
  rewrite insert_insert_eq, <- app_assoc. reflexivity.
Qed.

Lemma leave_line11 s : leave (buf_addr s) (state_line10 s) = Ok (tt, state_line11 s).
Proof.
  unfold leave, state_line10. cbn [mem stdout room stdout_error errno trace buf_addr pblock].
  rewrite lookup_insert_eq, delete_insert_eq, delete_id by apply buf_block_fresh.
  reflexivity.
Qed.

Lemma compound_app (l1 l2 : list stmt) s :
  compound (l1 ++ l2) s = (compound l1;; compound l2) s.
Proof.
  revert s. induction l1 as [|st l1 IH]; intros s; [reflexivity|].
  cbn [compound app]. cbv beta iota delta [mbind M_bind bind].
  destruct (st s) as [[[] s1]|e]; [|reflexivity].
  rewrite IH. reflexivity.
Qed.

(** Runs one source line: rewrites with the lemma of that line and
    reduces the sequencing around it. *)
Ltac run_line H := rewrite H; cbv beta iota.

Ltac open_body :=
  cbv beta iota delta
    [safe_examples safe_examples_upto safe_examples_body
     compound expr_stmt take mbind M_bind bind mret M_ret ret].

Lemma upto_line6 s : safe_examples_upto 0 s = Ok (buf_addr s, state_line6 s).
Proof. reflexivity. Qed.

Lemma upto_line8 s : safe_examples_upto 1 s = Ok (buf_addr s, state_line8 s).
Proof. open_body. run_line alloca_line6. run_line snprintf_line8. reflexivity. Qed.

Lemma upto_line9 s : safe_examples_upto 2 s = Ok (buf_addr s, state_line9 s).
Proof.
  open_body. run_line alloca_line6. run_line snprintf_line8.
  run_line printf_line9. reflexivity.
Qed.

Lemma upto_line10 s : safe_examples_upto 3 s = Ok (buf_addr s, state_line10 s).
Proof.
  open_body. run_line alloca_line6. run_line snprintf_line8.
  run_line printf_line9. run_line memcpy_line10. reflexivity.
Qed.

Lemma safe_examples_line11 s : safe_examples s = Ok (tt, state_line11 s).
Proof.
  open_body. run_line alloca_line6. run_line snprintf_line8.
  run_line printf_line9. run_line memcpy_line10. apply leave_line11.
Qed.

(** The function is its first [k] statements, then the others, then the
    end of the lifetime of [buf]. *)
Lemma safe_examples_split k s :
  safe_examples s =
  (buf ← safe_examples_upto k;
   compound (drop k (safe_examples_body buf));; leave buf) s.
Proof.
  unfold safe_examples, safe_examples_upto.
  cbv beta iota delta [mbind M_bind bind mret M_ret ret].
  rewrite alloca_line6; cbv beta iota.
  rewrite <- (take_drop k (safe_examples_body (buf_addr s))) at 1.
  rewrite compound_app. cbv beta iota delta [mbind M_bind bind].
  by destruct (compound (take k (safe_examples_body (buf_addr s))) (state_line6 s))
    as [[[] s1]|e].
Qed.

(** Whatever the format and the arguments, a successful [snprintf] with
    size [n] does at most one store, of at most [n] characters, inside
    the block of its destination. *)
Lemma snprintf_stores_at_most s p n fmt args r s1 :
  snprintf p n fmt args s = Ok (r, s1) →
  ∃ evs, trace s1 = trace s ++ evs ∧
         Forall (λ w, w.1.1.1 = pblock p ∧ w.1.2 ≤ n ∧ w.1.1.2 + w.1.2 ≤ w.2) (stores evs).
Proof.
  unfold snprintf. cbv beta iota delta [mbind M_bind bind log].
  destruct (cstring fmt) as [f|]; [|discriminate]. cbn [lift ret].
  destruct (format f args) as [out|]; [|discriminate]. cbn [lift ret].
  destruct n as [|m].
  - intros [= _ <-]. eexists. split; [reflexivity|]. cbn. constructor.
  - unfold store_bytes. cbn [mem stdout room stdout_error errno trace].
    destruct (mem s !! pblock p) as [cells|]; [|discriminate].
    destruct (Nat.leb_spec (poff p + length (take m out ++ [x00])) (length cells));
      [|discriminate].
    intros [= _ <-]. eexists. split; [cbn [trace]; rewrite <- app_assoc; reflexivity|].
    cbn. apply Forall_cons; split; [|done]. cbn.
    split; [reflexivity|]. split; [|lia].
    rewrite length_app, length_take. cbn. lia.
Qed.

(** A successful [memcpy] of [n] characters does one store, of exactly
    [n] characters, inside the block of its destination. *)
Lemma memcpy_stores_exactly s p src n r s1 :
  memcpy p src n s = Ok (r, s1) →
  r = p ∧
  ∃ evs, trace s1 = trace s ++ evs ∧
         ∃ cap, stores evs = [(pblock p, poff p, n, cap)] ∧ poff p + n ≤ cap.
Proof.
  unfold memcpy. cbv beta iota delta [mbind M_bind bind log].
  destruct (Nat.leb_spec n (length src)); [|discriminate].
  unfold store_bytes. cbn [mem stdout room stdout_error errno trace].
  destruct (mem s !! pblock p) as [cells|]; [|discriminate].
  destruct (Nat.leb_spec (poff p + length (take n src)) (length cells)); [|discriminate].
  intros [= <- <-]. split; [reflexivity|].
  eexists. split; [cbn [trace]; rewrite <- app_assoc; reflexivity|].
  rewrite length_take, Nat.min_l in * by lia.
  eexists. split; [reflexivity|lia].
Qed.

(** What [format] accepts is well typed: the arguments begin with the
    types its conversions ask for. *)
Lemma format_well_typed fmt : ∀ args out,
  format fmt args = Some out →
  ∃ tys, conversions fmt = Some tys ∧ tys `prefix_of` (type_of <$> args).
Proof.
  induction fmt as [fmt IH] using (induction_ltof1 _ (@length byte)).
  unfold ltof in IH. intros args out. destruct fmt as [|c fmt]; cbn [format conversions].
  { intros _. exists []. split; [done|]. apply prefix_nil. }
  destruct (Byte.eqb c percent).
  - destruct fmt as [|d fmt]; [done|].
    destruct (Byte.eqb d "d"%byte).
    { destruct args as [|[z| | |] args]; try done.
      destruct (is_int z); [|done].
      destruct (format fmt args) as [o|] eqn:E; [|done]. intros _.
      destruct (IH fmt ltac:(cbn; lia) _ _ E) as (tys & -> & Hp).
      exists (Tint :: tys). split; [done|]. cbn. by apply prefix_cons. }
    destruct (Byte.eqb d "s"%byte).
    { destruct args as [|[| | |a] args]; try done.
      cbn. destruct (cstring a); [|done]. cbn.
      destruct (format fmt args) as [o|] eqn:E; [|done]. intros _.
      destruct (IH fmt ltac:(cbn; lia) _ _ E) as (tys & -> & Hp).
      exists (Tcharp :: tys). split; [done|]. cbn. by apply prefix_cons. }
    destruct (Byte.eqb d percent); [|done].
    destruct (format fmt args) as [o|] eqn:E; [|done]. intros _.
    exact (IH fmt ltac:(cbn; lia) _ _ E).
  - destruct (format fmt args) as [o|] eqn:E; [|done]. intros _.
    exact (IH fmt ltac:(cbn; lia) _ _ E).
Qed.

(** ** The properties of [safe_examples] *)

Ltac course :=
  repeat
    first
      [ apply upto_line6 | apply upto_line8 | apply upto_line9 | apply upto_line10
      | apply safe_examples_line11
      | apply alloca_line6 | apply snprintf_line8 | apply printf_line9
      | apply memcpy_line10 | apply leave_line11
      | apply lookup_insert_eq
      | match goal with
        | |- mem _ !! _ = None => exact (buf_block_fresh _)
        end
      | split ].

Ltac by_trace :=
  cbn [trace mem stdout room stdout_error errno
       state_line6 state_line8 state_line9 state_line10 state_line11];
  rewrite <- ?app_assoc; reflexivity.

(** C1. In every execution of [safe_examples] each of the three library
    calls stores no more than its destination holds: [snprintf] stores 12
    characters and [memcpy] 4, both at offset 0 of the 32 characters of
    [buf] and both ending strictly before its end, [printf] stores
    nothing in memory, and no call is stopped by a store out of bounds. *)
Theorem safe_examples_stores_within_capacity (s : state) :
  ∃ buf s0 s1 s2 s3 s' ev1 ev2 ev3,
    safe_examples_upto 0 s = Ok (buf, s0) ∧
    safe_examples_upto 1 s = Ok (buf, s1) ∧
    safe_examples_upto 2 s = Ok (buf, s2) ∧
    safe_examples_upto 3 s = Ok (buf, s3) ∧
    safe_examples s = Ok (tt, s') ∧
    mem s0 !! pblock buf = Some (replicate 32 None) ∧
    trace s0 = trace s ∧
    trace s1 = trace s0 ++ ev1 ∧
    trace s2 = trace s1 ++ ev2 ∧
    trace s3 = trace s2 ++ ev3 ∧
    trace s' = trace s3 ∧
    (calls ev1).*1 = [Fsnprintf] ∧ stores ev1 = [(pblock buf, 0, 12, 32)] ∧
    (calls ev2).*1 = [Fprintf] ∧ stores ev2 = [] ∧ mem s2 = mem s1 ∧
    (calls ev3).*1 = [Fmemcpy] ∧ stores ev3 = [(pblock buf, 0, 4, 32)] ∧
    forallb strictly_bounded (ev1 ++ ev2 ++ ev3) = true.
Proof.
  exists (buf_addr s), (state_line6 s), (state_line8 s), (state_line9 s),
    (state_line10 s), (state_line11 s),
    [ev_snprintf s; Store (buf_block s) 0 12 32], [ev_printf],
    [ev_memcpy s; Store (buf_block s) 0 4 32].
  course; try by_trace; reflexivity.
Qed.

(** C2. The [snprintf] call is given the size [sizeof(buf)] = 32 and
    stores 12 characters, no more than 32: the output "Hello World" of
    the format, whole, and the null. It returns 11, and [buf] then holds
    the string "Hello World". *)
Theorem snprintf_call_stores_hello_world (s : state) :
  ∃ buf s0 s1 evs cells,
    safe_examples_upto 0 s = Ok (buf, s0) ∧
    sizeof_buf = 32 ∧
    snprintf buf sizeof_buf (string_literal "Hello %s")
      [Vstr (string_literal "World")] s0 = Ok (11%Z, s1) ∧
    safe_examples_upto 1 s = Ok (buf, s1) ∧
    trace s1 = trace s0 ++ evs ∧
    stores evs = [(pblock buf, poff buf, 12, 32)] ∧
    poff buf + 12 ≤ 32 ∧
    format (list_byte_of_string "Hello %s") [Vstr (string_literal "World")]
      = Some (list_byte_of_string "Hello World") ∧
    length (string_literal "Hello World") = 12 ∧
    mem s1 !! pblock buf = Some cells ∧
    length cells = 32 ∧
    take 12 (drop (poff buf) cells) = Some <$> string_literal "Hello World" ∧
    load_cstring (drop (poff buf) cells) = Some (list_byte_of_string "Hello World").
Proof.
  exists (buf_addr s), (state_line6 s), (state_line8 s),
    [ev_snprintf s; Store (buf_block s) 0 12 32], cells_line8.
  course; try by_trace; try reflexivity. vm_compute. lia.
Qed.

(** C3. The [memcpy] call copies exactly 4 characters, fewer than the 32
    [buf] holds: it stores 4 characters at offset 0 of the block of 32,
    and after it the first four characters of [buf] are a, b, c, d. *)
Theorem memcpy_call_copies_abcd (s : state) :
  ∃ buf s2 s3 evs cells,
    safe_examples_upto 2 s = Ok (buf, s2) ∧
    memcpy buf (string_literal "abcd") 4 s2 = Ok (buf, s3) ∧
    safe_examples_upto 3 s = Ok (buf, s3) ∧
    trace s3 = trace s2 ++ evs ∧
    stores evs = [(pblock buf, poff buf, 4, 32)] ∧
    4 < 32 ∧
    poff buf + 4 ≤ 32 ∧
    mem s3 !! pblock buf = Some cells ∧
    length cells = 32 ∧
    cells !! (poff buf + 0) = Some (Some "a"%byte) ∧
    cells !! (poff buf + 1) = Some (Some "b"%byte) ∧
    cells !! (poff buf + 2) = Some (Some "c"%byte) ∧
    cells !! (poff buf + 3) = Some (Some "d"%byte).
Proof.
  exists (buf_addr s), (state_line9 s), (state_line10 s),
    [ev_memcpy s; Store (buf_block s) 0 4 32], cells_line10.
  course; try by_trace; try reflexivity; vm_compute; lia.
Qed.

(** C4 does not hold of every execution: on a full device the [printf]
    call of line 9 returns -1, and the execution of [safe_examples] adds
    nothing to [stdout]. *)
Lemma printf_call_on_full_device :
  ∃ buf s1 s2 s',
    safe_examples_upto 1 full_state = Ok (buf, s1) ∧
    printf (string_literal (String.append "Value: %d" newline)) [Vint 42] s1
      = Ok ((-1)%Z, s2) ∧
    safe_examples full_state = Ok (tt, s') ∧
    stdout s' = [] ∧
    stdout s' ≠ stdout full_state ++ list_byte_of_string (String.append "Value: 42" newline).
Proof.
  exists (buf_addr full_state), (state_line8 full_state), (state_line9 full_state),
    (state_line11 full_state).
  split; [apply upto_line8|]. split; [exact (printf_line9 full_state)|].
  split; [apply safe_examples_line11|]. split; [reflexivity|].
  vm_compute. discriminate.
Qed.

(** C4, amended. The format of the [printf] call has one conversion,
    [%d], and the call has one argument, the [int] 42. In an execution
    whose [stdout] takes ten more characters the call writes "Value: 42"
    and a newline to [stdout] and returns 10, the error indicator of the
    stream stays as it was, and that text is all the execution of
    [safe_examples] adds to [stdout]. *)
Theorem printf_call_writes_value_42 (s : state) :
  has_room 10 s = true →
  ∃ buf s1 s2 s' f,
    cstring (string_literal (String.append "Value: %d" newline)) = Some f ∧
    conversions f = Some [Tint] ∧
    type_of <$> [Vint 42] = [Tint] ∧
    is_int 42 = true ∧
    safe_examples_upto 1 s = Ok (buf, s1) ∧
    printf (string_literal (String.append "Value: %d" newline)) [Vint 42] s1
      = Ok (10%Z, s2) ∧
    safe_examples_upto 2 s = Ok (buf, s2) ∧
    safe_examples s = Ok (tt, s') ∧
    stdout s1 = stdout s ∧
    stdout s2 = stdout s ++ list_byte_of_string (String.append "Value: 42" newline) ∧
    stdout s' = stdout s2 ∧
    stdout_error s2 = stdout_error s ∧
    stdout_error s' = stdout_error s.
Proof.
  intros Hroom. destruct (stdout_line9_fits s Hroom) as [Hout Herr].
  exists (buf_addr s), (state_line8 s), (state_line9 s), (state_line11 s),
    (list_byte_of_string (String.append "Value: %d" newline)).
  repeat split; try reflexivity.
  - apply upto_line8.
  - rewrite printf_line9, Hroom. reflexivity.
  - apply upto_line9.
  - apply safe_examples_line11.
  - exact Hout.
  - exact Herr.
  - exact Herr.
Qed.

Lemma printf_call_writes_value_42_witness :
  has_room 10 (room_state 10) = true ∧
  ∃ buf s1 s2 s' f,
    cstring (string_literal (String.append "Value: %d" newline)) = Some f ∧
    conversions f = Some [Tint] ∧
    type_of <$> [Vint 42] = [Tint] ∧
    is_int 42 = true ∧
    safe_examples_upto 1 (room_state 10) = Ok (buf, s1) ∧
    printf (string_literal (String.append "Value: %d" newline)) [Vint 42] s1
      = Ok (10%Z, s2) ∧
    safe_examples_upto 2 (room_state 10) = Ok (buf, s2) ∧
    safe_examples (room_state 10) = Ok (tt, s') ∧
    stdout s1 = stdout (room_state 10) ∧
    stdout s2 = stdout (room_state 10) ++ list_byte_of_string (String.append "Value: 42" newline) ∧
    stdout s' = stdout s2 ∧
    stdout_error s2 = stdout_error (room_state 10) ∧
    stdout_error s' = stdout_error (room_state 10).
Proof.
  split; [reflexivity|].
  apply (printf_call_writes_value_42 (room_state 10)). reflexivity.
Defined.

(** C5 does not hold of every execution: on a full device the [printf]
    call of line 9 fails. It returns a negative value and sets the error
    indicator of [stdout]. *)
Lemma printf_call_fails_on_full_device :
  ∃ buf s1 s2 r,
    safe_examples_upto 1 full_state = Ok (buf, s1) ∧
    printf (string_literal (String.append "Value: %d" newline)) [Vint 42] s1
      = Ok (r, s2) ∧
    (r < 0)%Z ∧
    stdout_error s1 = false ∧
    stdout_error s2 = true.
Proof.
  exists (buf_addr full_state), (state_line8 full_state), (state_line9 full_state),
    (-1)%Z.
  split; [apply upto_line8|]. split; [exact (printf_line9 full_state)|].
  split; [lia|]. split; reflexivity.
Qed.

(** C5, amended. [safe_examples] has no error path of its own: in every
    execution [snprintf] returns 11 and [memcpy] returns its destination,
    neither can fail, and the function returns normally. The [printf]
    call returns 10 when [stdout] takes the ten characters; when it does
    not, the call fails with a negative value and the error indicator of
    the stream set, and the function, which drops the value, goes on. *)
Theorem safe_examples_only_printf_can_fail (s : state) :
  ∃ buf s0 s1 s2 s3 s',
    alloca BUF_LEN s = Ok (buf, s0) ∧
    snprintf buf sizeof_buf (string_literal "Hello %s")
      [Vstr (string_literal "World")] s0 = Ok (11%Z, s1) ∧
    printf (string_literal (String.append "Value: %d" newline)) [Vint 42] s1
      = Ok (if has_room 10 s then 10%Z else (-1)%Z, s2) ∧
    stdout_error s2 = stdout_error s || negb (has_room 10 s) ∧
    memcpy buf (string_literal "abcd") 4 s2 = Ok (buf, s3) ∧
    leave buf s3 = Ok (tt, s') ∧
    safe_examples s = Ok (tt, s').
Proof.
  exists (buf_addr s), (state_line6 s), (state_line8 s), (state_line9 s),
    (state_line10 s), (state_line11 s).
  course.
Qed.

(** C6. The translation unit defines one function, [safe_examples]; its
    body is three statements, and every execution makes exactly three
    library calls, in this order: [snprintf], [printf], [memcpy]. Their
    arguments are the same constants in every execution, the address of
    the local array [buf] apart. *)
Theorem safe_examples_three_calls_in_order (s : state) :
  translation_unit = [("safe_examples"%string, safe_examples)] ∧
  (∀ buf, length (safe_examples_body buf) = 3) ∧
  ∃ buf s0 s' evs,
    safe_examples_upto 0 s = Ok (buf, s0) ∧
    safe_examples s = Ok (tt, s') ∧
    trace s' = trace s ++ evs ∧
    calls evs =
      [ (Fsnprintf, [Vptr buf; Vsize 32; Vstr (string_literal "Hello %s");
                     Vstr (string_literal "World")]);
        (Fprintf, [Vstr (string_literal (String.append "Value: %d" newline)); Vint 42]);
        (Fmemcpy, [Vptr buf; Vstr (string_literal "abcd"); Vsize 4]) ].
Proof.
  split; [reflexivity|]. split; [reflexivity|].
  exists (buf_addr s), (state_line6 s), (state_line11 s),
    [ev_snprintf s; Store (buf_block s) 0 12 32; ev_printf;
     ev_memcpy s; Store (buf_block s) 0 4 32].
  course; reflexivity.
Qed.




(** C8. The [memcpy] call changes the first four characters of [buf] and
    nothing else in memory: the characters from index 4 on are what they
    were before the call, those at 4..11 being "o World" and the null
    stored by [snprintf], so that at the end of [safe_examples] [buf]
    holds the string "abcdo World". *)
Theorem memcpy_keeps_tail_of_buf (s : state) :
  ∃ buf s2 s3 evs cells2 cells3,
    safe_examples_upto 2 s = Ok (buf, s2) ∧
    safe_examples_upto 3 s = Ok (buf, s3) ∧
    poff buf = 0 ∧
    trace s3 = trace s2 ++ evs ∧
    stores evs = [(pblock buf, 0, 4, 32)] ∧
    mem s2 !! pblock buf = Some cells2 ∧
    mem s3 !! pblock buf = Some cells3 ∧
    delete (pblock buf) (mem s3) = delete (pblock buf) (mem s2) ∧
    length cells2 = 32 ∧
    length cells3 = 32 ∧
    take 4 cells3 = Some <$> list_byte_of_string "abcd" ∧
    drop 4 cells3 = drop 4 cells2 ∧
    take 8 (drop 4 cells3) = Some <$> string_literal "o World" ∧
    load_cstring cells3 = Some (list_byte_of_string "abcdo World").
Proof.
  exists (buf_addr s), (state_line9 s), (state_line10 s),
    [ev_memcpy s; Store (buf_block s) 0 4 32], cells_line8, cells_line10.
  course; try by_trace; try reflexivity.
  cbn [mem state_line9 state_line10 buf_addr pblock].
  rewrite !delete_insert_eq. reflexivity.
Qed.

(** C9. [safe_examples] terminates: from every state the function, whose
    body is a sequence of three statements, returns after exactly three
    library calls. *)
Theorem safe_examples_terminates (s : state) :
  (∀ buf, length (safe_examples_body buf) = 3) ∧
  ∃ s' evs,
    safe_examples s = Ok (tt, s') ∧
    trace s' = trace s ++ evs ∧
    length (calls evs) = 3.
Proof.
  split; [reflexivity|].
  exists (state_line11 s),
    [ev_snprintf s; Store (buf_block s) 0 12 32; ev_printf;
     ev_memcpy s; Store (buf_block s) 0 4 32].
  course; reflexivity.
Qed.




(** ** Further properties of [safe_examples] *)

Lemma upto_from_line10 k s :
  3 ≤ k → safe_examples_upto k s = safe_examples_upto 3 s.
Proof.
  intros Hk. unfold safe_examples_upto.
  cbv beta iota delta [mbind M_bind bind].
  rewrite alloca_line6; cbv beta iota.
  rewrite !take_ge by (cbn; lia). reflexivity.
Qed.

(** The state [safe_examples] is in after [k] statements is one of the
    four of its course. *)
Lemma upto_cases k s :
  safe_examples_upto k s = Ok (buf_addr s, state_line6 s) ∧ k = 0 ∨
  safe_examples_upto k s = Ok (buf_addr s, state_line8 s) ∧ k = 1 ∨
  safe_examples_upto k s = Ok (buf_addr s, state_line9 s) ∧ k = 2 ∨
  safe_examples_upto k s = Ok (buf_addr s, state_line10 s) ∧ 3 ≤ k.
Proof.
  destruct k as [|[|[|k]]].
  - left. split; [apply upto_line6|done].
  - right; left. split; [apply upto_line8|done].
  - right; right; left. split; [apply upto_line9|done].
  - right; right; right. split; [|lia].
    rewrite upto_from_line10 by lia. apply upto_line10.
Qed.

(** X1. From line 8 on [buf] always holds a string: after any number
    [k ≥ 1] of statements of the body there is a null within [buf], and
    the string before it has 11 characters, fewer than [sizeof(buf)]. The
    [memcpy] of four characters without a null does not undo that. *)
Theorem buf_holds_string_from_line8 (k : nat) (s : state) :
  1 ≤ k →
  ∃ buf sk cells str,
    safe_examples_upto k s = Ok (buf, sk) ∧
    mem sk !! pblock buf = Some cells ∧
    load_cstring (drop (poff buf) cells) = Some str ∧
    length str = 11 ∧
    length str < sizeof_buf.
Proof.
  intros Hk. destruct (upto_cases k s) as [[_ ->]|[[E _]|[[E _]|[E _]]]]; [lia| | |].
  - exists (buf_addr s), (state_line8 s), cells_line8, (list_byte_of_string "Hello World").
    split; [exact E|]. split; [apply lookup_insert_eq|]. split; [reflexivity|].
    split; [reflexivity|]. vm_compute. lia.
  - exists (buf_addr s), (state_line9 s), cells_line8, (list_byte_of_string "Hello World").
    split; [exact E|]. split; [apply lookup_insert_eq|]. split; [reflexivity|].
    split; [reflexivity|]. vm_compute. lia.
  - exists (buf_addr s), (state_line10 s), cells_line10, (list_byte_of_string "abcdo World").
    split; [exact E|]. split; [apply lookup_insert_eq|]. split; [reflexivity|].
    split; [reflexivity|]. vm_compute. lia.
Qed.

Lemma buf_holds_string_from_line8_witness :
  1 ≤ 2 ∧
  ∃ buf sk cells str,
    safe_examples_upto 2 empty_state = Ok (buf, sk) ∧
    mem sk !! pblock buf = Some cells ∧
    load_cstring (drop (poff buf) cells) = Some str ∧
    length str = 11 ∧
    length str < sizeof_buf.
Proof.
  split; [lia|]. apply (buf_holds_string_from_line8 2 empty_state). lia.
Defined.

(** X2. At every point of the body, not only at the return, the memory
    of the caller is as it was at the call: after any number [k] of
    statements the memory without the block of [buf] is the memory the
    function was started in. The block of [buf] is a new one of 32 cells,
    of which those from index 12 on are never given a value, and what
    was on [stdout] at the call is still the beginning of [stdout]. *)
Theorem caller_memory_kept_at_every_line (k : nat) (s : state) :
  ∃ buf sk cells,
    safe_examples_upto k s = Ok (buf, sk) ∧
    mem s !! pblock buf = None ∧
    delete (pblock buf) (mem sk) = mem s ∧
    mem sk !! pblock buf = Some cells ∧
    length cells = 32 ∧
    drop 12 cells = replicate 20 None ∧
    stdout s `prefix_of` stdout sk.
Proof.
  assert (Hd : ∀ c : list cell, delete (buf_block s) (<[buf_block s := c]> (mem s)) = mem s).
  { intros c. rewrite delete_insert_eq. apply delete_id, buf_block_fresh. }
  destruct (upto_cases k s) as [[E _]|[[E _]|[[E _]|[E _]]]].
  - exists (buf_addr s), (state_line6 s), cells_line6.
    split; [exact E|]. split; [apply buf_block_fresh|]. split; [apply Hd|].
    split; [apply lookup_insert_eq|]. repeat split. exists []. cbn. by rewrite app_nil_r.
  - exists (buf_addr s), (state_line8 s), cells_line8.
    split; [exact E|]. split; [apply buf_block_fresh|]. split; [apply Hd|].
    split; [apply lookup_insert_eq|]. repeat split. exists []. cbn. by rewrite app_nil_r.
  - exists (buf_addr s), (state_line9 s), cells_line8.
    split; [exact E|]. split; [apply buf_block_fresh|]. split; [apply Hd|].
    split; [apply lookup_insert_eq|]. repeat split. exact (transmit_prefix text_line9 s).
  - exists (buf_addr s), (state_line10 s), cells_line10.
    split; [exact E|]. split; [apply buf_block_fresh|]. split; [apply Hd|].
    split; [apply lookup_insert_eq|]. repeat split. exact (transmit_prefix text_line9 s).
Qed.

Lemma has_room_after_line11 n s :
  has_room (10 + n) s = true →
  has_room 10 s = true ∧ has_room n (state_line11 s) = true.
Proof.
  unfold has_room, state_line11, stream_line9, transmit, accepted.
  cbn [room]. destruct (room s) as [k|]; [|done].
  intros H%Nat.leb_le. cbn [fmap option_fmap option_map].
  split; apply Nat.leb_le; change (length text_line9) with 10; lia.
Qed.

(** X3. Calls of [safe_examples] compose: any number [n] of calls in a
    row, from any state whose [stdout] takes [10 n] more characters, all
    return normally, leave the memory as it was before the first (no
    block of [buf] is left behind), write the text "Value: 42" and a
    newline [n] times, and make [3 n] library calls and [2 n] stores. *)
Theorem safe_examples_repeated (n : nat) (s : state) :
  has_room (10 * n) s = true →
  ∃ s' evs,
    compound (replicate n safe_examples) s = Ok (tt, s') ∧
    mem s' = mem s ∧
    stdout s' =
      stdout s ++ concat (replicate n (list_byte_of_string (String.append "Value: 42" newline))) ∧
    stdout_error s' = stdout_error s ∧
    trace s' = trace s ++ evs ∧
    length (calls evs) = 3 * n ∧
    length (stores evs) = 2 * n.
Proof.
  revert s. induction n as [|n IH]; intros s Hroom.
  - exists s, []. cbn. rewrite !app_nil_r. by destruct s.
  - replace (10 * S n) with (10 + 10 * n) in Hroom by lia.
    destruct (has_room_after_line11 _ _ Hroom) as [H10 Hrest].
    destruct (stdout_line9_fits s H10) as [Hout Herr].
    destruct (IH (state_line11 s) Hrest)
      as (s' & evs & E & Hm & Ho & He & Ht & Hc & Hs).
    exists s', ([ev_snprintf s; Store (buf_block s) 0 12 32; ev_printf;
                 ev_memcpy s; Store (buf_block s) 0 4 32] ++ evs).
    split.
    { cbn [replicate compound]. cbv beta iota delta [mbind M_bind bind].
      rewrite safe_examples_line11. cbv beta iota. exact E. }
    split; [exact Hm|].
    split. { rewrite Ho. change (stdout (state_line11 s)) with (stdout (state_line9 s)).
             rewrite Hout. cbn [replicate concat]. by rewrite <- app_assoc. }
    split. { rewrite He. exact Herr. }
    split. { rewrite Ht. cbn [trace state_line11]. by rewrite <- app_assoc. }
    unfold calls, stores in *. rewrite !omap_app, !length_app, Hc, Hs.
    cbn. lia.
Qed.

Lemma safe_examples_repeated_witness :
  has_room (10 * 2) (room_state 25) = true ∧
  ∃ s' evs,
    compound (replicate 2 safe_examples) (room_state 25) = Ok (tt, s') ∧
    mem s' = mem (room_state 25) ∧
    stdout s' =
      stdout (room_state 25) ++ concat (replicate 2 (list_byte_of_string (String.append "Value: 42" newline))) ∧
    stdout_error s' = stdout_error (room_state 25) ∧
    trace s' = trace (room_state 25) ++ evs ∧
    length (calls evs) = 3 * 2 ∧
    length (stores evs) = 2 * 2.
Proof.
  split; [reflexivity|].
  apply (safe_examples_repeated 2 (room_state 25)). reflexivity.
Defined.

(** X5. In every execution, also one whose [stdout] refuses the output,
    [safe_examples] returns normally and leaves the memory it was started
    in exactly as it was: its stores all go to the block of [buf], which
    is no block of the caller and is gone when the function returns, and
    what was on [stdout] at the call is still the beginning of [stdout]. *)
Theorem safe_examples_memory_frame (s : state) :
  ∃ buf s0 s' evs,
    safe_examples_upto 0 s = Ok (buf, s0) ∧
    safe_examples s = Ok (tt, s') ∧
    mem s' = mem s ∧
    trace s' = trace s ++ evs ∧
    (stores evs).*1.*1.*1 = [pblock buf; pblock buf] ∧
    mem s !! pblock buf = None ∧
    mem s0 !! pblock buf = Some (replicate 32 None) ∧
    mem s' !! pblock buf = None ∧
    stdout s `prefix_of` stdout s'.
Proof.
  exists (buf_addr s), (state_line6 s), (state_line11 s),
    [ev_snprintf s; Store (buf_block s) 0 12 32; ev_printf;
     ev_memcpy s; Store (buf_block s) 0 4 32].
  split; [apply upto_line6|]. split; [apply safe_examples_line11|].
  split; [reflexivity|]. split; [reflexivity|]. split; [reflexivity|].
  split; [exact (buf_block_fresh s)|]. split; [apply lookup_insert_eq|].
  split; [exact (buf_block_fresh s)|].
  exact (transmit_prefix text_line9 s).
Qed.
